(** * inky-what-weather: a shallow embedding of [weather.py]

    The script fetches a forecast document, classifies the icon code of each
    reading, builds a transparency mask for every icon bitmap and lays the
    current conditions and three forecast tiles out on the canvas of an
    e-paper display.

    Python integers are [Z]; dictionaries whose iteration order matters
    ([icon_map]) are association lists, the others are [gmap]s; a decoded
    bitmap is a raw row-major pixel buffer; a statement that can raise is a
    computation in [option] ([None] is the uncaught exception that ends the
    run). *)

From Stdlib Require Import ZArith QArith.
From stdpp Require Import base option list numbers strings gmap.

Set Warnings "-register-all".
Local Open Scope Z_scope.

(** ** Loops that may raise *)

(** [for a in l: s = f(s, a)], where the body may raise. *)
Fixpoint for_each {A S : Type} (l : list A) (f : S → A → option S) (s : S)
  : option S :=
  match l with
  | [] => Some s
  | a :: l' => match f s a with
               | Some s' => for_each l' f s'
               | None => None
               end
  end.

(** [range(n)]: empty for [n <= 0]. *)
Definition range (n : Z) : list Z := seqZ 0 n.

(** ** Bitmaps (the part of PIL's [Image] the script relies on) *)

Module PIL.

Inductive mode := Mode1 | ModeP.

(** A decoded bitmap: [data] holds one value per pixel, row after row. *)
Record Image := mkImage {
  im_mode : mode;
  width : Z;
  height : Z;
  data : list Z
}.

Definition size (im : Image) : Z * Z := (width im, height im).

(** What every bitmap PIL hands out satisfies. *)
Definition wf (im : Image) : Prop :=
  0 ≤ width im ∧ 0 ≤ height im ∧
  length (data im) = Z.to_nat (width im * height im).

Definition in_bounds (im : Image) (xy : Z * Z) : bool :=
  (0 <=? xy.1) && (xy.1 <? width im) && (0 <=? xy.2) && (xy.2 <? height im).

Definition offset_of (im : Image) (xy : Z * Z) : nat :=
  Z.to_nat (xy.2 * width im + xy.1).

(** [Image.new(mode, size)]: every pixel 0; a negative size raises. *)
Definition new (m : mode) (sz : Z * Z) : option Image :=
  if (0 <=? sz.1) && (0 <=? sz.2)
  then Some (mkImage m sz.1 sz.2 (replicate (Z.to_nat (sz.1 * sz.2)) 0))
  else None.

(** [im.getpixel((x, y))] for the coordinates the script passes, which come
    from [range]: outside the bitmap it raises. *)
Definition getpixel (im : Image) (xy : Z * Z) : option Z :=
  if in_bounds im xy then data im !! offset_of im xy else None.

(** [im.putpixel((x, y), v)]: in-place store; outside the bitmap it raises. *)
Definition putpixel (im : Image) (xy : Z * Z) (v : Z) : option Image :=
  if in_bounds im xy
  then Some (mkImage (im_mode im) (width im) (height im)
                     (<[offset_of im xy := v]> (data im)))
  else None.

End PIL.

(** ** weather.py, lines 21-39: icon classification *)

(** [icon_map]: a dict literal, iterated in insertion order. *)
Definition icon_map : list (string * list string) :=
  [ ("snow", ["snow"; "sleet"]);
    ("rain", ["rain"]);
    ("cloud", ["fog"; "cloudy"; "partly-cloudy-day"; "partly-cloudy-night"]);
    ("sun", ["clear-day"; "clear-night"]);
    ("storm", []);
    ("wind", ["wind"]) ]%string.

Definition LARGE_FONT_SIZE : Z := 20.
Definition MEDIUM_FONT_SIZE : Z := 17.
Definition SMALL_FONT_SIZE : Z := 15.
Definition SUMMARY_H : Z := LARGE_FONT_SIZE * 2.
Definition FORECARST_COLUMNS : Z := 3.

(** The loop of [lookup_icon] over an arbitrary table: the first key whose
    list holds [icon_name]; falling off the end of the function gives
    Python's [None]. *)
Fixpoint lookup_icon_in (table : list (string * list string))
  (icon_name : string) : option string :=
  match table with
  | [] => None
  | (icon, codes) :: rest =>
      if decide (icon_name ∈ codes) then Some icon
      else lookup_icon_in rest icon_name
  end.

Definition lookup_icon (icon_name : string) : option string :=
  lookup_icon_in icon_map icon_name.

(** ** weather.py, lines 48-65: transparency masks *)

Definition create_mask (source : PIL.Image) (mask : list Z)
  : option PIL.Image :=
  mask_image ← PIL.new PIL.Mode1 (PIL.size source);
  let '(w, h) := PIL.size source in
  for_each (range w) (λ mask_image x,
    for_each (range h) (λ mask_image y,
      p ← PIL.getpixel source (x, y);
      if decide (p ∈ mask)
      then PIL.putpixel mask_image (x, y) 255
      else Some mask_image) mask_image) mask_image.

(** ** Python values the script handles *)

(** What [json.loads] builds. [JNull] is Python's [None]; a number literal
    without fraction or exponent is an [int], any other a [float], kept as
    the exact value of its literal. *)
Inductive json :=
| JNull
| JBool (b : bool)
| JInt (z : Z)
| JFloat (q : Q)
| JStr (s : string)
| JList (l : list json)
| JDict (d : gmap string json).

(** The numbers [round] and [datetime.fromtimestamp] accept. *)
Inductive number := Int (z : Z) | Float (q : Q).

(** [bool] is a subclass of [int]; anything else makes [round] raise. *)
Definition as_number (j : json) : option number :=
  match j with
  | JBool b => Some (Int (if b then 1 else 0))
  | JInt z => Some (Int z)
  | JFloat q => Some (Float q)
  | _ => None
  end.

Definition as_str (j : json) : option string :=
  match j with JStr s => Some s | _ => None end.

(** [j[key]] for a string key: [KeyError] or [TypeError] is [None]. *)
Definition item (j : json) (key : string) : option json :=
  match j with JDict d => d !! key | _ => None end.

(** [j[i]] for [i] in [range(n)]. *)
Definition index (j : json) (i : Z) : option json :=
  if i <? 0 then None else
  match j with
  | JList l => l !! Z.to_nat i
  | JStr s => (λ c, JStr (String c "")) <$> String.get (Z.to_nat i) s
  | _ => None
  end.

(** ** String methods used on the icon paths *)

(** [s.split(sep)] for a non-empty [sep]: [skip] counts the characters of a
    separator just matched that are still to be dropped. *)
Fixpoint split_go (sep s : string) (skip : nat) (cur : string) : list string :=
  match s with
  | EmptyString => [cur]
  | String c s' =>
      match skip with
      | S k => split_go sep s' k cur
      | O => if String.prefix sep s
             then cur :: split_go sep s' (String.length sep - 1)%nat ""
             else split_go sep s' 0%nat (cur +:+ String c "")
      end
  end.

Definition str_split (s sep : string) : list string := split_go sep s 0%nat "".

(** [s.replace(old, new)] for a non-empty [old]. *)
Fixpoint replace_go (old new s : string) (skip : nat) : string :=
  match s with
  | EmptyString => ""
  | String c s' =>
      match skip with
      | S k => replace_go old new s' k
      | O => if String.prefix old s
             then new +:+ replace_go old new s' (String.length old - 1)%nat
             else String c (replace_go old new s' 0%nat)
      end
  end.

Definition str_replace (s old new : string) : string := replace_go old new s 0%nat.

(** ** The display and the canvas *)

(** The attributes of the [InkyWHAT] object the script reads. *)
Record Display := mkDisplay {
  WIDTH : Z;
  HEIGHT : Z;
  WHITE : Z;
  BLACK : Z;
  RED : Z
}.

(** The image being composed, as the sequence of drawing calls made on it.
    [ImageDraw.Draw(img)] and [img] are one object: a call through either
    appends to the same canvas. *)
Inductive Canvas :=
| mkCanvas (w h fill : Z) (ops : list draw_op)
with draw_op :=
| Text (xy : Q * Q) (text : string) (fill : Z) (font_size : Z)
| Rectangle (box : Z * Z * Z * Z) (fill : Z)
| Paste (im : PIL.Image) (xy : Z * Z) (mask : PIL.Image)
| PasteCanvas (tile : Canvas) (xy : Z * Z).

Definition cv_width (c : Canvas) : Z := let '(mkCanvas w _ _ _) := c in w.
Definition cv_height (c : Canvas) : Z := let '(mkCanvas _ h _ _) := c in h.
Definition cv_fill (c : Canvas) : Z := let '(mkCanvas _ _ f _) := c in f.
Definition cv_ops (c : Canvas) : list draw_op := let '(mkCanvas _ _ _ o) := c in o.

(** [Image.new("P", size, colour)] for a canvas. *)
Definition new_canvas (sz : Z * Z) (colour : Z) : option Canvas :=
  if (0 <=? sz.1) && (0 <=? sz.2) then Some (mkCanvas sz.1 sz.2 colour [])
  else None.

(** What [set_image] receives: [img.rotate(angle)]. *)
Inductive Shown := Rotate (img : Canvas) (angle : Z).

(** *** Drawing computations: a canvas is threaded, any call may raise *)

Definition Draw (A : Type) : Type := Canvas → option (A * Canvas).

#[global] Instance Draw_ret : MRet Draw := λ A a c, Some (a, c).
#[global] Instance Draw_bind : MBind Draw := λ A B f m c,
  match m c with
  | Some (a, c') => f a c'
  | None => None
  end.

(** A pure expression that may raise. *)
Definition eval {A : Type} (o : option A) : Draw A :=
  λ c, match o with Some a => Some (a, c) | None => None end.

(** The canvas after further drawing calls. *)
Definition append_ops (c : Canvas) (ops : list draw_op) : Canvas :=
  mkCanvas (cv_width c) (cv_height c) (cv_fill c) (cv_ops c ++ ops).

Definition emit (op : draw_op) : Draw () :=
  λ c, Some ((), append_ops c [op]).

Definition draw_text (xy : Q * Q) (text : string) (fill font : Z) : Draw () :=
  emit (Text xy text fill font).
Definition draw_rectangle (box : Z * Z * Z * Z) (fill : Z) : Draw () :=
  emit (Rectangle box fill).
Definition img_paste (im : PIL.Image) (xy : Z * Z) (mask : PIL.Image) : Draw () :=
  emit (Paste im xy mask).
Definition img_paste_tile (tile : Canvas) (xy : Z * Z) : Draw () :=
  emit (PasteCanvas tile xy).
Definition img_width : Draw Z := λ c, Some (cv_width c, c).

(** [a / 2] on integers is a float; halves are exact. *)
Definition half (a : Z) : Q := (inject_Z a / 2)%Q.
(** [int(a / b)]: the float quotient truncated toward zero. *)
Definition int_div (a b : Z) : Z := Z.quot a b.

(** ** The script's functions *)

Section Weather.

(** *** Collaborators outside the script *)

(** [requests.get(url)]: status code and what [res.json()] gives, each
    [None] when the call raises. *)
Record Response := mkResponse {
  status_code : Z;
  json_body : option json
}.
Variable requests_get : string → option Response.

(** [ImageFont.truetype(FredokaOne, size).getsize(text)]. *)
Variable getsize : Z → string → Z * Z.

(** The text an f-string gives for [round(x, 1)]. *)
Variable fmt_round1 : number → string.

(** [calendar.day_name[datetime.fromtimestamp(t, pytz.timezone(tz)).weekday()]];
    an unknown zone raises. *)
Variable weekday_name : number → string → option string.

(** [datetime.now(pytz.timezone(tz)).strftime("%H:%M:%S %d %b %Y")]. *)
Variable now_strftime : string → option string.

(** [InkyWHAT(colour)]. *)
Variable InkyWHAT : string → Display.

(** [round(data_point[key], 1)] inside an f-string. *)
Definition rounded (data_point : json) (key : string) : option string :=
  v ← item data_point key; n ← as_number v; Some (fmt_round1 n).

(** [lookup_icon(data_point['icon'])]: a value that is not a string is in
    no code list. *)
Definition lookup_icon_value (v : json) : option string :=
  match v with JStr s => lookup_icon s | _ => None end.

(** [d[icon_name]] where [icon_name] may be Python's [None]. *)
Definition getitem (d : gmap string PIL.Image) (icon_name : option string)
  : option PIL.Image :=
  k ← icon_name; d !! k.

(** The f-string of line 42. *)
Definition forecast_url (latitude longitude key : string) : string :=
  "https://api.darksky.net/forecast/" +:+ key +:+ "/"
    +:+ latitude +:+ "," +:+ longitude
    +:+ "?exclude=minutely,hourly,alerts,flags&units=si&lang=en".

(** lines 41-46 *)
Definition get_weather (latitude longitude key : string) : option json :=
  res ← requests_get (forecast_url latitude longitude key);
  if decide (status_code res = 200)
  then json_body res
  else Some JNull.

(** lines 67-90 *)
Definition show_current_weather (data_point : json) (inky_display : Display)
  (h_offset : Z) : Draw Z :=
  let offset := h_offset in
  let font := LARGE_FONT_SIZE in
  summary ← eval (item data_point "summary" ≫= as_str);
  let '(text_w, text_h) := getsize font summary in
  draw_text (half (WIDTH inky_display - text_w),
             (inject_Z offset + half (SUMMARY_H - text_h))%Q)
            summary (RED inky_display) font;;
  let offset := offset + SUMMARY_H in
  let font := MEDIUM_FONT_SIZE in
  pressure ← eval (rounded data_point "pressure");
  let text_pressure := "Pressure " +:+ pressure in
  let '(text_pressure_w, text_pressure_h) := getsize font text_pressure in
  draw_text (half (WIDTH inky_display - text_pressure_w), inject_Z offset)
            text_pressure (BLACK inky_display) font;;
  let offset := offset + LARGE_FONT_SIZE in
  wind_speed ← eval (rounded data_point "windSpeed");
  let text_wind_speed := "Wind speed " +:+ wind_speed in
  let '(text_wind_speed_w, text_wind_speed_h) := getsize font text_wind_speed in
  draw_text (half (WIDTH inky_display - text_wind_speed_w), inject_Z offset)
            text_wind_speed (BLACK inky_display) font;;
  let offset := offset + LARGE_FONT_SIZE in
  visibility ← eval (rounded data_point "visibility");
  let text_visibility := "Visibility " +:+ visibility in
  let '(text_visibility_w, text_visibility_h) := getsize font text_visibility in
  draw_text (half (WIDTH inky_display - text_visibility_w), inject_Z offset)
            text_visibility (BLACK inky_display) font;;
  let offset := offset + LARGE_FONT_SIZE in
  ozone ← eval (rounded data_point "ozone");
  let text_ozone := "Ozone " +:+ ozone in
  let '(text_ozone_w, text_ozone_h) := getsize font text_ozone in
  draw_text (half (WIDTH inky_display - text_ozone_w), inject_Z offset)
            text_ozone (BLACK inky_display) font;;
  let offset := offset + LARGE_FONT_SIZE in
  mret (offset + 10).

(** lines 92-103. [icon_image] is not a parameter of the function: line 102
    reads the module-level name that the loading loop of the main block
    (lines 136-140) rebinds for each file; [None] is the unbound name. *)
Definition show_current_weather_icon (icon_image : option PIL.Image)
  (data_point : json) (inky_display : Display)
  (icons masks : gmap string PIL.Image) (h_offset : Z) : Draw Z :=
  let font := SMALL_FONT_SIZE in
  temperature ← eval (rounded data_point "temperature");
  apparent ← eval (rounded data_point "apparentTemperature");
  let temp_text := temperature +:+ "C feels like " +:+ apparent +:+ "C" in
  let '(text_w, text_h) := getsize font temp_text in
  code ← eval (item data_point "icon");
  let icon_name := lookup_icon_value code in
  icon ← eval (getitem icons icon_name);
  draw_rectangle (0, h_offset, WIDTH inky_display, h_offset + PIL.height icon)
                 (BLACK inky_display);;
  icon ← eval (getitem icons icon_name);
  draw_text (8%Q, (inject_Z h_offset + half (PIL.height icon - text_h))%Q)
            temp_text (WHITE inky_display) font;;
  precip ← eval (rounded data_point "precipProbability");
  let temp_text := "Precip. chance: " +:+ precip +:+ "%" in
  let '(text_w, text_h) := getsize font temp_text in
  icon ← eval (getitem icons icon_name);
  draw_text (inject_Z (WIDTH inky_display - text_w - 8),
             (inject_Z h_offset + half (PIL.height icon - text_h))%Q)
            temp_text (WHITE inky_display) font;;
  icon ← eval (getitem icons icon_name);
  global_icon_image ← eval icon_image;
  mask ← eval (getitem masks icon_name);
  img_paste icon
    (int_div (WIDTH inky_display - PIL.width global_icon_image) 2, h_offset)
    mask;;
  icon ← eval (getitem icons icon_name);
  mret (h_offset + PIL.height icon).

(** lines 105-116. [inky_display] is the module-level name here. *)
Definition draw_weather_tile (inky_display : Display) (data_point : json)
  (icons masks : gmap string PIL.Image) (timezone : json) : Draw () :=
  time_text ← eval (t ← item data_point "time" ≫= as_number;
                    tz ← as_str timezone;
                    weekday_name t tz);
  let font := MEDIUM_FONT_SIZE in
  let '(time_text_w, time_text_h) := getsize font time_text in
  img_w ← img_width;
  draw_text (inject_Z (int_div (img_w - time_text_w) 2), 0%Q)
            time_text (RED inky_display) font;;
  code ← eval (item data_point "icon");
  let icon_name := lookup_icon_value code in
  icon ← eval (getitem icons icon_name);
  draw_rectangle (0, time_text_h, img_w, time_text_h + PIL.height icon)
                 (BLACK inky_display);;
  icon ← eval (getitem icons icon_name);
  mask ← eval (getitem masks icon_name);
  img_paste icon (int_div (img_w - PIL.width icon) 2, time_text_h) mask;;
  low ← eval (rounded data_point "temperatureLow");
  high ← eval (rounded data_point "temperatureHigh");
  let temp_text := low +:+ "C to " +:+ high +:+ "C" in
  let '(temp_text_w, temp_text_h) := getsize font temp_text in
  icon ← eval (getitem icons icon_name);
  draw_text (half (img_w - temp_text_w), inject_Z (time_text_h + PIL.height icon))
            temp_text (BLACK inky_display) font.

(** *** The main block, lines 119-157 *)

Record Args := mkArgs {
  colour : string;
  dskey : string;
  latitude : string;
  longitude : string
}.

(** What the loading loop leaves bound: [icons], [masks] and the
    module-level [icon_image]. *)
Record Loaded := mkLoaded {
  icons : gmap string PIL.Image;
  masks : gmap string PIL.Image;
  icon_image : option PIL.Image
}.

(** lines 136-140; [files] is what [glob.glob] lists, each path with the
    bitmap [Image.open] decodes from it. *)
Definition load_icons (inky_display : Display)
  (files : list (string * PIL.Image)) : option Loaded :=
  for_each files (λ st '(icon, opened),
    icon_name ← str_split icon "icon-" !! 1%nat;
    let icon_name := str_replace icon_name ".png" "" in
    let icon_image := opened in
    let icons := <[icon_name := icon_image]> (icons st) in
    mask ← create_mask icon_image
             [WHITE inky_display; BLACK inky_display; RED inky_display];
    Some (mkLoaded icons (<[icon_name := mask]> (masks st)) (Some icon_image)))
    (mkLoaded ∅ ∅ None).

(** lines 146-152 *)
Definition draw_tiles (inky_display : Display) (res : json)
  (ld : Loaded) (used_h : Z) : Draw () :=
  let tile_w := int_div (WIDTH inky_display) FORECARST_COLUMNS in
  let tile_h := HEIGHT inky_display - used_h in
  λ img,
    img ← for_each (range FORECARST_COLUMNS) (λ img i,
      tile ← new_canvas (tile_w, tile_h) (WHITE inky_display);
      daily ← item res "daily";
      data ← item daily "data";
      data_point ← index data i;
      timezone ← item res "timezone";
      '(_, tile) ← draw_weather_tile inky_display data_point
                     (icons ld) (masks ld) timezone tile;
      '(_, img) ← img_paste_tile tile (i * tile_w, used_h) img;
      Some img) img;
    Some ((), img).

Definition main (args : Args) (files : list (string * PIL.Image))
  : option Shown :=
  res ← get_weather (latitude args) (longitude args) (dskey args);
  let inky_display := InkyWHAT (colour args) in
  ld ← load_icons inky_display files;
  img ← new_canvas (WIDTH inky_display, HEIGHT inky_display) (WHITE inky_display);
  currently ← item res "currently";
  '(used_h, img) ← show_current_weather currently inky_display 0 img;
  currently ← item res "currently";
  '(used_h, img) ← show_current_weather_icon (icon_image ld) currently
                     inky_display (icons ld) (masks ld) used_h img;
  '(_, img) ← draw_tiles inky_display res ld used_h img;
  let font := SMALL_FONT_SIZE in
  timezone ← item res "timezone" ≫= as_str;
  now ← now_strftime timezone;
  let timestamp := "Data loaded at " +:+ now in
  '(_, img) ← draw_text (8%Q, inject_Z (HEIGHT inky_display - SMALL_FONT_SIZE))
                timestamp (RED inky_display) font img;
  Some (Rotate img 180).

End Weather.

(** ** Vocabulary of the statements *)

(** No code is listed under two entries of a classification table. *)
Definition codes_disjoint (table : list (string * list string)) : Prop :=
  ∀ i j ei ej, i ≠ j → table !! i = Some ei → table !! j = Some ej →
    ∀ code, code ∈ ei.2 → code ∉ ej.2.

(** [code] is listed under no entry of the table. *)
Definition unlisted (table : list (string * list string)) (code : string) : Prop :=
  Forall (λ e, code ∉ e.2) table.

(** The value [create_mask] leaves in the mask where the source pixel is [p]. *)
Definition mask_value (mask : list Z) (p : Z) : Z :=
  if decide (p ∈ mask) then 255 else 0.

(** The mask being built by [create_mask] once the pixels selected by
    [visited] have gone through the loop body: those carry their final
    value, the others still the 0 of [Image.new]. *)
Definition mask_progress (source : PIL.Image) (mask : list Z)
  (visited : Z → Z → bool) (mask_image : PIL.Image) : Prop :=
  PIL.wf mask_image ∧ PIL.im_mode mask_image = PIL.Mode1 ∧
  PIL.width mask_image = PIL.width source ∧
  PIL.height mask_image = PIL.height source ∧
  ∀ x y p, 0 ≤ x < PIL.width source → 0 ≤ y < PIL.height source →
    PIL.getpixel source (x, y) = Some p →
    PIL.getpixel mask_image (x, y)
    = Some (if visited x y then mask_value mask p else 0).

(** The reading carries a number, a string, under [key]. *)
Definition has_number (data_point : json) (key : string) : Prop :=
  is_Some (item data_point key ≫= as_number).
Definition has_text (data_point : json) (key : string) : Prop :=
  is_Some (item data_point key ≫= as_str).

(** The metrics [show_current_weather] prints. *)
Definition current_metrics_present (data_point : json) : Prop :=
  has_text data_point "summary" ∧ has_number data_point "pressure" ∧
  has_number data_point "windSpeed" ∧ has_number data_point "visibility" ∧
  has_number data_point "ozone".

(** The metrics [show_current_weather_icon] prints. *)
Definition icon_bar_metrics_present (data_point : json) : Prop :=
  has_number data_point "temperature" ∧
  has_number data_point "apparentTemperature" ∧
  has_number data_point "precipProbability".

(** The icon code of the reading maps to a category whose bitmap [icon] and
    mask [mask] are loaded. *)
Definition icon_loaded (icons masks : gmap string PIL.Image) (data_point : json)
  (icon mask : PIL.Image) : Prop :=
  ∃ code category, item data_point "icon" = Some code ∧
    lookup_icon_value code = Some category ∧
    icons !! category = Some icon ∧ masks !! category = Some mask.

(** What [draw_weather_tile] reads besides the icon: a timestamp that
    converts to a weekday in the forecast's zone, and the two temperatures. *)
Definition tile_metrics_present (weekday_name : number → string → option string)
  (data_point timezone : json) : Prop :=
  is_Some (t ← item data_point "time" ≫= as_number;
           tz ← as_str timezone;
           weekday_name t tz) ∧
  has_number data_point "temperatureLow" ∧
  has_number data_point "temperatureHigh".

(** The forecast document holds [daily.data] with a drawable reading at each
    of the first [FORECARST_COLUMNS] positions, and a [timezone]. *)
Definition forecast_ready (weekday_name : number → string → option string)
  (icons masks : gmap string PIL.Image) (res : json) : Prop :=
  ∃ daily data timezone,
    item res "daily" = Some daily ∧ item daily "data" = Some data ∧
    item res "timezone" = Some timezone ∧
    ∀ i, 0 ≤ i < FORECARST_COLUMNS →
      ∃ data_point icon mask,
        index data i = Some data_point ∧
        tile_metrics_present weekday_name data_point timezone ∧
        icon_loaded icons masks data_point icon mask.

(** The icon code of the reading maps to a category whose bitmap is [icon]. *)
Definition icon_mapped (icons : gmap string PIL.Image) (data_point : json)
  (icon : PIL.Image) : Prop :=
  ∃ code category, item data_point "icon" = Some code ∧
    lookup_icon_value code = Some category ∧
    icons !! category = Some icon.

(** The span of rows a drawing call covers, a text measured by [getsize]. *)
Definition rows (getsize : Z → string → Z * Z) (op : draw_op) : Q * Q :=
  match op with
  | Text xy text _ font => (xy.2, (xy.2 + inject_Z (getsize font text).2)%Q)
  | Rectangle box _ => (inject_Z box.1.1.2, inject_Z box.2)
  | Paste im xy _ => (inject_Z xy.2, inject_Z (xy.2 + PIL.height im))
  | PasteCanvas tile xy => (inject_Z xy.2, inject_Z (xy.2 + cv_height tile))
  end.

(** The rows [top, bottom) hold the span. *)
Definition rows_within (top bottom : Z) (span : Q * Q) : Prop :=
  (inject_Z top <= span.1)%Q ∧ (span.2 <= inject_Z bottom)%Q.

Definition is_text (op : draw_op) : bool :=
  match op with Text _ _ _ _ => true | _ => false end.

(** The tiles pasted on a canvas, each with the position of its top-left
    corner, in pasting order. *)
Definition tiles_of (c : Canvas) : list (Canvas * (Z * Z)) :=
  omap (λ op, match op with PasteCanvas tile xy => Some (tile, xy) | _ => None end)
       (cv_ops c).

(** The columns [x, x + width) of two pasted tiles share no column. *)
Definition columns_disjoint (a b : Canvas * (Z * Z)) : Prop :=
  a.2.1 + cv_width a.1 ≤ b.2.1 ∨ b.2.1 + cv_width b.1 ≤ a.2.1.

(** Every pixel of [im] carries a value of [allowed]. *)
Definition restricted_to (allowed : list Z) (im : PIL.Image) : Prop :=
  Forall (λ p, p ∈ allowed) (PIL.data im).

(** The rows [show_current_weather] and [show_current_weather_icon] have
    used when the icon of the current reading is [icon] and drawing started
    at row 0. *)
Definition current_section_height (icon : PIL.Image) : Z :=
  SUMMARY_H + 4 * LARGE_FONT_SIZE + 10 + PIL.height icon.

(** ** A sample run *)

(** Stand-ins for the collaborators: a fixed-pitch font, a formatter, one
    known time zone, and the 400x300 three-colour panel. *)
Definition sample_getsize (font : Z) (text : string) : Z * Z :=
  (Z.of_nat (String.length text) * font `div` 2, font).

Definition sample_fmt_round1 (n : number) : string :=
  match n with Int _ => "7" | Float _ => "7.5" end.

Definition sample_weekday_name (t : number) (tz : string) : option string :=
  if decide (tz = "Europe/London"%string) then Some "Monday"%string else None.

Definition sample_now_strftime (tz : string) : option string :=
  if decide (tz = "Europe/London"%string)
  then Some "12:00:00 01 Jan 2020"%string else None.

Definition sample_display (colour : string) : Display := mkDisplay 400 300 0 1 2.

Definition sample_icon (w h : Z) : PIL.Image :=
  PIL.mkImage PIL.ModeP w h (replicate (Z.to_nat (w * h)) 1).

Definition sample_mask (w h : Z) : PIL.Image :=
  PIL.mkImage PIL.Mode1 w h (replicate (Z.to_nat (w * h)) 255).

(** Two icons of different widths, the narrower one listed last. *)
Definition sample_files : list (string * PIL.Image) :=
  [ ("/home/pi/weather_resources/icon-sun.png"%string, sample_icon 8 6);
    ("/home/pi/weather_resources/icon-wind.png"%string, sample_icon 6 6) ].

Definition sample_loaded : Loaded :=
  mkLoaded
    (list_to_map [("sun"%string, sample_icon 8 6); ("wind"%string, sample_icon 6 6)])
    (list_to_map [("sun"%string, sample_mask 8 6); ("wind"%string, sample_mask 6 6)])
    (Some (sample_icon 6 6)).

Definition sample_reading (icon : string) : json :=
  JDict (list_to_map
    [ ("summary"%string, JStr "Clear");
      ("icon"%string, JStr icon);
      ("temperature"%string, JFloat (15 # 2));
      ("apparentTemperature"%string, JInt 7);
      ("pressure"%string, JFloat (20265 # 2));
      ("windSpeed"%string, JFloat (15 # 2));
      ("visibility"%string, JInt 7);
      ("ozone"%string, JFloat (15 # 2));
      ("precipProbability"%string, JInt 0);
      ("time"%string, JInt 1577836800);
      ("temperatureLow"%string, JInt 7);
      ("temperatureHigh"%string, JFloat (15 # 2)) ]).

Definition sample_forecast : json :=
  JDict (list_to_map
    [ ("currently"%string, sample_reading "clear-day");
      ("daily"%string,
        JDict (list_to_map
          [ ("data"%string,
              JList [ sample_reading "wind"; sample_reading "clear-night";
                      sample_reading "wind" ]) ]));
      ("timezone"%string, JStr "Europe/London") ]).

Definition sample_requests_get (url : string) : option Response :=
  Some (mkResponse 200 (Some sample_forecast)).

Definition sample_args : Args := mkArgs "red" "secret" "51.5" "-0.1".

(** * Icon classification *)

(** Case analysis on the position [i] of an entry [H : l !! i = Some _] of a
    literal list [l]. *)
Ltac split_index i H :=
  destruct i as [|i]; simpl in H;
  [ | first [ discriminate H | split_index i H ] ].

Section LookupIcon.

Implicit Types (table : list (string * list string)) (code cat : string).

Lemma lookup_icon_in_first table code cat :
  lookup_icon_in table code = Some cat →
  ∃ i codes, table !! i = Some (cat, codes) ∧ code ∈ codes ∧
    ∀ j e, (j < i)%nat → table !! j = Some e → code ∉ e.2.
Proof.
  induction table as [|[icon codes] rest IH]; simpl; [done|].
  destruct (decide (code ∈ codes)) as [Hin|Hout].
  - intros [= <-]. exists 0%nat, codes. repeat split; [done|]. intros; lia.
  - intros (i & cs & Hi & Hc & Hbefore)%IH.
    exists (S i), cs. repeat split; [done..|].
    intros [|j] e Hj He; simpl in He.
    + by injection He as <-.
    + eapply Hbefore; [|done]. lia.
Qed.

Lemma lookup_icon_in_listed table code i e :
  table !! i = Some e → code ∈ e.2 → is_Some (lookup_icon_in table code).
Proof.
  revert i. induction table as [|[icon codes] rest IH]; intros i; [done|].
  simpl. destruct (decide (code ∈ codes)); [by eexists|].
  destruct i as [|i]; simpl.
  - by intros [= <-] ?.
  - apply IH.
Qed.

Lemma lookup_icon_in_unlisted table code :
  unlisted table code → lookup_icon_in table code = None.
Proof.
  induction 1 as [|[icon codes] rest Hout _ IH]; simpl; [done|].
  by destruct (decide (code ∈ codes)).
Qed.

Lemma lookup_icon_in_owner table code i cat codes :
  codes_disjoint table →
  table !! i = Some (cat, codes) → code ∈ codes →
  lookup_icon_in table code = Some cat.
Proof.
  intros Hdisj Hi Hc.
  destruct (lookup_icon_in_listed table code i (cat, codes) Hi Hc) as [cat' Hl].
  rewrite Hl. f_equal.
  destruct (lookup_icon_in_first _ _ _ Hl) as (i' & codes' & Hi' & Hc' & _).
  destruct (decide (i = i')) as [->|Hne]; [congruence|].
  by destruct (Hdisj i i' _ _ Hne Hi Hi' code Hc).
Qed.

Lemma icon_map_disjoint : codes_disjoint icon_map.
Proof.
  intros i j ei ej Hne Hi Hj code Hc Hc'.
  unfold icon_map in Hi, Hj.
  split_index i Hi; split_index j Hj; simplify_eq/=;
    repeat match goal with
           | H : _ ∈ [] |- _ => by apply elem_of_nil in H
           | H : _ ∈ _ :: _ |- _ => apply elem_of_cons in H as [?|H]; simplify_eq
           end.
Qed.

End LookupIcon.

(** C2. The code lists of [icon_map] are pairwise disjoint; [lookup_icon]
    sends every code listed under a category to exactly that category; in
    particular ["clear-day"] is classified as ["sun"]. *)
Theorem icon_map_lookup_owner :
  codes_disjoint icon_map ∧
  (∀ cat codes code,
     (cat, codes) ∈ icon_map → code ∈ codes → lookup_icon code = Some cat) ∧
  lookup_icon "clear-day" = Some "sun"%string.
Proof.
  split; [exact icon_map_disjoint|]. split; [|reflexivity].
  intros cat codes code [i Hi]%list_elem_of_lookup Hc.
  exact (lookup_icon_in_owner icon_map code i cat codes icon_map_disjoint Hi Hc).
Qed.

Lemma icon_map_lookup_owner_witness :
  ("snow"%string, ["snow"; "sleet"]%string) ∈ icon_map ∧
  "sleet"%string ∈ ["snow"; "sleet"]%string ∧
  lookup_icon "sleet" = Some "snow"%string.
Proof.
  assert (Hentry : ("snow"%string, ["snow"; "sleet"]%string) ∈ icon_map)
    by repeat constructor.
  assert (Hcode : "sleet"%string ∈ ["snow"; "sleet"]%string)
    by repeat constructor.
  split; [exact Hentry|]. split; [exact Hcode|].
  exact (proj1 (proj2 icon_map_lookup_owner) _ _ _ Hentry Hcode).
Defined.

(** C6. A code that appears in no category's list of [icon_map] makes
    [lookup_icon] return Python's [None], never a category. *)
Theorem lookup_icon_unrecognized (code : string) :
  (∀ cat codes, (cat, codes) ∈ icon_map → code ∉ codes) →
  lookup_icon code = None.
Proof.
  intros Hout. apply lookup_icon_in_unlisted, Forall_forall.
  intros [cat codes] Hin. exact (Hout cat codes Hin).
Qed.

Lemma lookup_icon_unrecognized_witness : lookup_icon "hail" = None.
Proof.
  apply lookup_icon_unrecognized.
  intros cat codes Hin Hc. unfold icon_map in Hin.
  repeat match goal with
         | H : _ ∈ [] |- _ => by apply elem_of_nil in H
         | H : _ ∈ _ :: _ |- _ => apply elem_of_cons in H as [?|H]; simplify_eq
         end.
Defined.

(** C10. The ["storm"] entry of [icon_map] lists no code, so no input makes
    [lookup_icon] return ["storm"]: the category is declared and never
    selected, whatever value a reading carries as its icon. *)
Theorem lookup_icon_never_storm :
  ("storm"%string, []) ∈ icon_map ∧
  (∀ code, lookup_icon code ≠ Some "storm"%string) ∧
  (∀ v : json, lookup_icon_value v ≠ Some "storm"%string).
Proof.
  assert (Hnever : ∀ code, lookup_icon code ≠ Some "storm"%string).
  { intros code (i & codes & Hi & Hc & _)%lookup_icon_in_first.
    unfold icon_map in Hi. split_index i Hi; simplify_eq/=.
    by apply elem_of_nil in Hc. }
  split; [repeat constructor|]. split; [exact Hnever|].
  intros []; simpl; first [apply Hnever | done].
Qed.

(** * Loops *)

Section Loops.

Context {A S : Type}.
Implicit Types (f : S → A → option S) (l : list A).

(** An invariant indexed by the elements already processed: if every
    iteration that starts in the invariant completes and re-establishes
    it, the loop completes in the invariant of the whole list. *)
Lemma for_each_invariant (I : list A → S → Prop) f l s0 :
  I [] s0 →
  (∀ seen a rest s, l = seen ++ a :: rest → I seen s →
     ∃ s', f s a = Some s' ∧ I (seen ++ [a]) s') →
  ∃ s', for_each l f s0 = Some s' ∧ I l s'.
Proof.
  intros Hinit Hstep.
  cut (∀ rest seen s, l = seen ++ rest → I seen s →
         ∃ s', for_each rest f s = Some s' ∧ I l s').
  { intros Hgo. by apply (Hgo l [] s0). }
  induction rest as [|a rest IH]; intros seen s Hl Hs; simpl.
  - exists s. rewrite app_nil_r in Hl. by subst.
  - destruct (Hstep seen a rest s Hl Hs) as (s' & -> & Hs').
    apply (IH (seen ++ [a])); [|done]. by rewrite <- app_assoc.
Qed.

(** A property every completed iteration preserves holds when the loop
    completes. *)
Lemma for_each_preserves (P : S → Prop) f l s0 s' :
  for_each l f s0 = Some s' → P s0 →
  (∀ s a s1, f s a = Some s1 → P s → P s1) → P s'.
Proof.
  intros Hrun Hinit Hstep. revert s0 Hrun Hinit.
  induction l as [|a l IH]; intros s0 Hrun Hinit; simpl in Hrun.
  - by injection Hrun as <-.
  - destruct (f s0 a) as [s1|] eqn:Hf; [|done]. eauto.
Qed.

End Loops.

(** The same for [for k in range(n)], the invariant indexed by the number of
    iterations made. *)
Lemma for_range_invariant {S : Type} (I : Z → S → Prop) (n : Z)
  (f : S → Z → option S) (s0 : S) :
  0 ≤ n →
  I 0 s0 →
  (∀ k s, 0 ≤ k < n → I k s → ∃ s', f s k = Some s' ∧ I (k + 1) s') →
  ∃ s', for_each (range n) f s0 = Some s' ∧ I n s'.
Proof.
  intros Hn Hinit Hstep.
  destruct (for_each_invariant (λ seen s, I (Z.of_nat (length seen)) s)
              f (range n) s0) as (s' & Hrun & Hs'); [done| |].
  - intros seen a rest s Hl Hs.
    assert (Ha : range n !! length seen = Some a).
    { rewrite Hl. by rewrite list_lookup_middle. }
    apply lookup_seqZ in Ha as [-> Hlt].
    destruct (Hstep (Z.of_nat (length seen)) s) as (s' & Hf & Hs'); [lia|done|].
    exists s'. split; [by rewrite Z.add_0_l|].
    rewrite length_app. simpl. by replace (Z.of_nat (length seen + 1)) with
      (Z.of_nat (length seen) + 1) by lia.
  - exists s'. split; [done|].
    unfold range in Hs'. rewrite length_seqZ in Hs'.
    by rewrite Z2Nat.id in Hs'.
Qed.

(** * Pixel access *)

Section Pixels.

Import PIL.
Implicit Types (im : Image) (x y v : Z).

Lemma in_bounds_spec im x y :
  in_bounds im (x, y) = true ↔ 0 ≤ x < width im ∧ 0 ≤ y < height im.
Proof. unfold in_bounds; simpl. rewrite !andb_true_iff. lia. Qed.

Lemma offset_of_lt im x y :
  0 ≤ x < width im → 0 ≤ y < height im →
  (offset_of im (x, y) < Z.to_nat (width im * height im))%nat.
Proof. unfold offset_of; simpl. intros Hx Hy. apply Z2Nat.inj_lt; nia. Qed.

Lemma offset_of_inj im x y x' y' :
  0 ≤ x < width im → 0 ≤ y → 0 ≤ x' < width im → 0 ≤ y' →
  offset_of im (x, y) = offset_of im (x', y') → x = x' ∧ y = y'.
Proof.
  unfold offset_of; simpl. intros Hx Hy Hx' Hy' Heq.
  apply Z2Nat.inj in Heq; [|nia..].
  assert (y = y') by nia. subst. lia.
Qed.

(** Every position of the buffer is the offset of one pixel. *)
Lemma offset_of_surj im (i : nat) :
  0 ≤ width im → 0 ≤ height im →
  (i < Z.to_nat (width im * height im))%nat →
  ∃ x y, 0 ≤ x < width im ∧ 0 ≤ y < height im ∧ offset_of im (x, y) = i.
Proof.
  intros Hw Hh Hi.
  assert (Z.of_nat i < width im * height im) by lia.
  assert (0 < width im) by nia.
  exists (Z.of_nat i `mod` width im), (Z.of_nat i `div` width im).
  pose proof (Z.mod_pos_bound (Z.of_nat i) (width im)).
  pose proof (Z.div_mod (Z.of_nat i) (width im)).
  assert (0 ≤ Z.of_nat i `div` width im) by (apply Z.div_pos; lia).
  assert (Z.of_nat i `div` width im < height im).
  { apply Z.div_lt_upper_bound; [lia|nia]. }
  repeat split; try lia.
  unfold offset_of; simpl. lia.
Qed.

Lemma getpixel_is_Some im x y :
  wf im → 0 ≤ x < width im → 0 ≤ y < height im →
  is_Some (getpixel im (x, y)).
Proof.
  intros (_ & _ & Hlen) Hx Hy. unfold getpixel.
  rewrite (proj2 (in_bounds_spec im x y)) by done.
  apply lookup_lt_is_Some. rewrite Hlen. by apply offset_of_lt.
Qed.

Lemma new_spec m w h :
  0 ≤ w → 0 ≤ h →
  ∃ im, new m (w, h) = Some im ∧ wf im ∧ im_mode im = m ∧
        width im = w ∧ height im = h ∧
        ∀ x y, 0 ≤ x < w → 0 ≤ y < h → getpixel im (x, y) = Some 0.
Proof.
  intros Hw Hh. unfold new; simpl.
  rewrite (proj2 (Z.leb_le 0 w)), (proj2 (Z.leb_le 0 h)) by done. simpl.
  eexists. split; [done|]. repeat split; simpl; try done.
  - by rewrite length_replicate.
  - intros x y Hx Hy. unfold getpixel.
    rewrite (proj2 (in_bounds_spec _ x y)) by done. simpl.
    apply lookup_replicate_2.
    by apply (offset_of_lt (mkImage m w h _) x y).
Qed.

Lemma putpixel_spec im x y v :
  wf im → 0 ≤ x < width im → 0 ≤ y < height im →
  ∃ im', putpixel im (x, y) v = Some im' ∧ wf im' ∧
         im_mode im' = im_mode im ∧
         width im' = width im ∧ height im' = height im ∧
         getpixel im' (x, y) = Some v ∧
         ∀ x' y', 0 ≤ x' < width im → 0 ≤ y' < height im →
           (x', y') ≠ (x, y) → getpixel im' (x', y') = getpixel im (x', y').
Proof.
  intros (Hw & Hh & Hlen) Hx Hy. unfold putpixel.
  rewrite (proj2 (in_bounds_spec im x y)) by done.
  eexists. split; [done|].
  split; [by repeat split; simpl; rewrite ?length_insert|].
  repeat split; simpl.
  - unfold getpixel.
    rewrite (proj2 (in_bounds_spec _ x y)) by done. simpl.
    apply list_lookup_insert_eq. rewrite Hlen. by apply offset_of_lt.
  - intros x' y' Hx' Hy' Hne. unfold getpixel.
    rewrite (proj2 (in_bounds_spec _ x' y')) by done.
    rewrite (proj2 (in_bounds_spec im x' y')) by done. simpl.
    apply list_lookup_insert_ne.
    intros Heq. apply (offset_of_inj im x y x' y') in Heq as [-> ->]; [done|lia..].
Qed.

(** Two bitmaps of one mode and size with the same pixels are equal. *)
Lemma image_eq im1 im2 :
  wf im1 → wf im2 → im_mode im1 = im_mode im2 →
  width im1 = width im2 → height im1 = height im2 →
  (∀ x y, 0 ≤ x < width im1 → 0 ≤ y < height im1 →
     getpixel im1 (x, y) = getpixel im2 (x, y)) →
  im1 = im2.
Proof.
  destruct im1 as [m1 w1 h1 d1], im2 as [m2 w2 h2 d2]; simpl.
  intros (Hw & Hh & Hl1) (_ & _ & Hl2) -> -> -> Hpix. simpl in *.
  f_equal. apply list_eq. intros i.
  destruct (decide (i < Z.to_nat (w2 * h2))%nat) as [Hi|Hi].
  - destruct (offset_of_surj (mkImage m2 w2 h2 d1) i Hw Hh Hi)
      as (x & y & Hx & Hy & Hoff); simpl in *.
    specialize (Hpix x y Hx Hy). unfold getpixel in Hpix.
    rewrite (proj2 (in_bounds_spec _ x y)) in Hpix by done.
    rewrite (proj2 (in_bounds_spec _ x y)) in Hpix by done.
    simpl in Hpix. unfold offset_of in *; simpl in *. by rewrite <- Hoff.
  - rewrite !lookup_ge_None_2; [done|lia..].
Qed.

End Pixels.


(** * Transparency masks *)

Section CreateMask.

Import PIL.
Variables (source : Image) (mask : list Z).
Hypothesis source_wf : wf source.

Lemma mask_progress_ext visited visited' mask_image :
  (∀ x y, 0 ≤ x < width source → 0 ≤ y < height source →
     visited x y = visited' x y) →
  mask_progress source mask visited mask_image →
  mask_progress source mask visited' mask_image.
Proof.
  intros Hext (Hwf & Hmode & Hw & Hh & Hpix).
  repeat split; try done; try apply Hwf.
  intros x y p Hx Hy Hp. rewrite <- Hext by done. by apply Hpix.
Qed.

(** The body of the inner loop, lines 62-64, at pixel [(x, y)]. *)
Lemma create_mask_body x y visited mask_image :
  0 ≤ x < width source → 0 ≤ y < height source →
  visited x y = false →
  mask_progress source mask visited mask_image →
  ∃ mask_image',
    (p ← getpixel source (x, y);
     if decide (p ∈ mask) then putpixel mask_image (x, y) 255
     else Some mask_image) = Some mask_image' ∧
    mask_progress source mask
      (λ x' y', visited x' y' || ((x' =? x) && (y' =? y))) mask_image'.
Proof.
  intros Hx Hy Hfresh (Hwf & Hmode & Hw & Hh & Hpix).
  destruct (getpixel_is_Some source x y source_wf Hx Hy) as [p Hp].
  rewrite Hp; simpl.
  destruct (decide (p ∈ mask)) as [Hin|Hout].
  - destruct (putpixel_spec mask_image x y 255 Hwf)
      as (m' & -> & Hwf' & Hmode' & Hw' & Hh' & Hset & Hkeep); [lia..|].
    exists m'. split; [done|].
    repeat split; try congruence; try apply Hwf'.
    intros x' y' p' Hx' Hy' Hp'.
    destruct (decide ((x', y') = (x, y))) as [[= -> ->]|Hne].
    + rewrite Hset, Hfresh, !Z.eqb_refl. simpl.
      assert (p' = p) as -> by congruence.
      unfold mask_value. by rewrite decide_True.
    + rewrite Hkeep by (done || lia). rewrite (Hpix x' y' p') by done.
      assert ((x' =? x) && (y' =? y) = false) as ->; [|by rewrite orb_false_r].
      apply andb_false_iff.
      destruct (decide (x' = x)) as [->|]; [right|left]; apply Z.eqb_neq; congruence.
  - exists mask_image. split; [done|].
    repeat split; try done; try apply Hwf.
    intros x' y' p' Hx' Hy' Hp'. rewrite (Hpix x' y' p') by done.
    destruct (decide ((x', y') = (x, y))) as [[= -> ->]|Hne].
    + rewrite Hfresh, !Z.eqb_refl. simpl.
      assert (p' = p) as -> by congruence.
      unfold mask_value. by rewrite decide_False.
    + assert ((x' =? x) && (y' =? y) = false) as ->; [|by rewrite orb_false_r].
      apply andb_false_iff.
      destruct (decide (x' = x)) as [->|]; [right|left]; apply Z.eqb_neq; congruence.
Qed.

(** The inner loop, lines 61-64, over column [x]. *)
Lemma create_mask_column x mask_image :
  0 ≤ x < width source →
  mask_progress source mask (λ x' _, x' <? x) mask_image →
  ∃ mask_image',
    for_each (range (height source)) (λ mask_image y,
      p ← getpixel source (x, y);
      if decide (p ∈ mask) then putpixel mask_image (x, y) 255
      else Some mask_image) mask_image = Some mask_image' ∧
    mask_progress source mask (λ x' _, x' <? x + 1) mask_image'.
Proof.
  intros Hx Hstart.
  destruct (for_range_invariant
    (λ j, mask_progress source mask
            (λ x' y', (x' <? x) || ((x' =? x) && (y' <? j))))
    (height source)
    (λ mask_image y,
      p ← getpixel source (x, y);
      if decide (p ∈ mask) then putpixel mask_image (x, y) 255
      else Some mask_image) mask_image) as (m' & Hrun & Hm').
  - apply source_wf.
  - revert Hstart. apply mask_progress_ext. intros x' y' _ Hy'.
    assert ((y' <? 0) = false) as -> by lia. by rewrite andb_false_r, orb_false_r.
  - intros j m Hj Hm.
    destruct (create_mask_body x j
                (λ x' y', (x' <? x) || ((x' =? x) && (y' <? j))) m Hx Hj)
      as (m' & Hbody & Hm'); [lia|done|].
    exists m'. split; [done|]. revert Hm'. apply mask_progress_ext.
    intros x' y' _ _. lia.
  - exists m'. split; [done|]. revert Hm'. apply mask_progress_ext.
    intros x' y' _ Hy'. lia.
Qed.

(** [create_mask] returns, and this is what it returns. *)
Lemma create_mask_spec :
  ∃ mask_image,
    create_mask source mask = Some mask_image ∧
    mask_progress source mask (λ _ _, true) mask_image.
Proof.
  destruct source_wf as (Hw & Hh & _).
  unfold create_mask, size.
  destruct (new_spec Mode1 (width source) (height source) Hw Hh)
    as (m0 & -> & Hwf0 & Hmode0 & Hw0 & Hh0 & Hzero). simpl.
  destruct (for_range_invariant
    (λ k, mask_progress source mask (λ x' _, x' <? k))
    (width source)
    (λ mask_image x,
      for_each (range (height source)) (λ mask_image y,
        p ← getpixel source (x, y);
        if decide (p ∈ mask) then putpixel mask_image (x, y) 255
        else Some mask_image) mask_image) m0) as (m' & Hrun & Hm').
  - done.
  - repeat split; try done; try apply Hwf0.
    intros x y p Hx Hy _. assert ((x <? 0) = false) as -> by lia. by apply Hzero.
  - intros k m Hk Hm. by apply create_mask_column.
  - exists m'. split; [done|]. revert Hm'. apply mask_progress_ext.
    intros x y Hx _. lia.
Qed.

End CreateMask.

Lemma restricted_to_getpixel (allowed : list Z) (im : PIL.Image) (xy : Z * Z) (p : Z) :
  restricted_to allowed im → PIL.getpixel im xy = Some p → p ∈ allowed.
Proof.
  unfold restricted_to, PIL.getpixel. intros Hall Hp.
  destruct (PIL.in_bounds im xy); [|done].
  apply list_elem_of_lookup_2 in Hp. by apply (proj1 (Forall_forall _ _) Hall).
Qed.

(** C1. For every paletted source bitmap and every allowed set of palette
    indices, [create_mask] returns a single-bit mask of the size of the
    source in which a pixel is 255 exactly when the source pixel at the same
    coordinate carries an allowed index, and 0 otherwise. *)
Theorem create_mask_correct (source : PIL.Image) (mask : list Z) :
  PIL.wf source →
  ∃ mask_image,
    create_mask source mask = Some mask_image ∧
    PIL.im_mode mask_image = PIL.Mode1 ∧
    PIL.size mask_image = PIL.size source ∧
    ∀ x y, 0 ≤ x < PIL.width source → 0 ≤ y < PIL.height source →
      ∃ p v, PIL.getpixel source (x, y) = Some p ∧
             PIL.getpixel mask_image (x, y) = Some v ∧
             (v = 255 ↔ p ∈ mask) ∧ (v = 0 ↔ p ∉ mask).
Proof.
  intros Hwf.
  destruct (create_mask_spec source mask Hwf)
    as (m & Hrun & _ & Hmode & Hw & Hh & Hpix).
  exists m. split; [done|]. split; [done|].
  split; [unfold PIL.size; congruence|].
  intros x y Hx Hy.
  destruct (getpixel_is_Some source x y Hwf Hx Hy) as [p Hp].
  exists p, (mask_value mask p). split; [done|].
  split; [by apply Hpix|].
  unfold mask_value. destruct (decide (p ∈ mask)); split; split; done.
Qed.

Lemma create_mask_correct_witness :
  ∃ mask_image,
    create_mask (PIL.mkImage PIL.ModeP 2 2 [0; 5; 2; 7]) [0; 1; 2]
    = Some mask_image ∧
    PIL.im_mode mask_image = PIL.Mode1 ∧
    PIL.size mask_image = (2, 2) ∧
    ∀ x y, 0 ≤ x < 2 → 0 ≤ y < 2 →
      ∃ p v, PIL.getpixel (PIL.mkImage PIL.ModeP 2 2 [0; 5; 2; 7]) (x, y) = Some p ∧
             PIL.getpixel mask_image (x, y) = Some v ∧
             (v = 255 ↔ p ∈ [0; 1; 2]) ∧ (v = 0 ↔ p ∉ [0; 1; 2]).
Proof.
  apply (create_mask_correct (PIL.mkImage PIL.ModeP 2 2 [0; 5; 2; 7]) [0; 1; 2]).
  repeat split; simpl; lia.
Defined.

(** The mask of a bitmap restricted to the allowed set is 255 everywhere. *)
Lemma create_mask_restricted (source : PIL.Image) (allowed : list Z) :
  PIL.wf source → restricted_to allowed source →
  ∃ m, create_mask source allowed = Some m ∧ PIL.wf m ∧
       PIL.im_mode m = PIL.Mode1 ∧
       PIL.width m = PIL.width source ∧ PIL.height m = PIL.height source ∧
       ∀ x y, 0 ≤ x < PIL.width source → 0 ≤ y < PIL.height source →
         PIL.getpixel m (x, y) = Some 255.
Proof.
  intros Hwf Hres.
  destruct (create_mask_spec source allowed Hwf)
    as (m & Hrun & Hwfm & Hmode & Hw & Hh & Hpix).
  exists m. repeat split; try done; try apply Hwfm.
  intros x y Hx Hy.
  destruct (getpixel_is_Some source x y Hwf Hx Hy) as [p Hp].
  rewrite (Hpix x y p Hx Hy Hp). unfold mask_value.
  by rewrite decide_True by (by eapply restricted_to_getpixel).
Qed.

(** The claim C7 as stated fails on the palette the script passes: the mask
    of a one-pixel bitmap of index 0 is [255], and the mask of that mask,
    for the same allowed set (0, 1, 2), is [0]. *)
Lemma create_mask_twice_differs :
  PIL.wf (PIL.mkImage PIL.ModeP 1 1 [0]) ∧
  restricted_to [0; 1; 2] (PIL.mkImage PIL.ModeP 1 1 [0]) ∧
  create_mask (PIL.mkImage PIL.ModeP 1 1 [0]) [0; 1; 2]
  = Some (PIL.mkImage PIL.Mode1 1 1 [255]) ∧
  create_mask (PIL.mkImage PIL.Mode1 1 1 [255]) [0; 1; 2]
  = Some (PIL.mkImage PIL.Mode1 1 1 [0]) ∧
  (create_mask (PIL.mkImage PIL.ModeP 1 1 [0]) [0; 1; 2]
     ≫= λ m, create_mask m [0; 1; 2])
  ≠ create_mask (PIL.mkImage PIL.ModeP 1 1 [0]) [0; 1; 2].
Proof.
  split; [repeat split; simpl; lia|].
  split; [repeat constructor|].
  split; [reflexivity|]. split; [reflexivity|].
  vm_compute. discriminate.
Qed.

(** C7 (amended). On a bitmap whose pixels all carry allowed indices,
    running [create_mask] again on its own result with the same allowed set
    gives the same mask, provided 255, the value of a visible mask pixel, is
    itself in the allowed set. *)
Theorem create_mask_idempotent (source : PIL.Image) (allowed : list Z) :
  PIL.wf source → restricted_to allowed source → 255 ∈ allowed →
  ∃ m, create_mask source allowed = Some m ∧
       create_mask m allowed = Some m.
Proof.
  intros Hwf Hres H255.
  destruct (create_mask_restricted source allowed Hwf Hres)
    as (m & Hrun & Hwfm & Hmode & Hw & Hh & Hpix).
  exists m. split; [done|].
  destruct (create_mask_spec m allowed Hwfm)
    as (m' & -> & Hwfm' & Hmode' & Hw' & Hh' & Hpix').
  f_equal. apply image_eq; try done; try congruence.
  intros x y Hx Hy. rewrite Hw' in Hx. rewrite Hh' in Hy.
  assert (Hp : PIL.getpixel m (x, y) = Some 255) by (apply Hpix; lia).
  rewrite (Hpix' x y 255 Hx Hy Hp), Hp. unfold mask_value.
  by rewrite decide_True.
Qed.

Lemma create_mask_idempotent_witness :
  ∃ m, create_mask (PIL.mkImage PIL.ModeP 2 1 [0; 255]) [0; 255] = Some m ∧
       create_mask m [0; 255] = Some m.
Proof.
  apply (create_mask_idempotent (PIL.mkImage PIL.ModeP 2 1 [0; 255]) [0; 255]).
  - repeat split; simpl; lia.
  - repeat constructor.
  - repeat constructor.
Defined.

(** The other case: when 255 is not allowed, the second run masks out every
    pixel. *)
Lemma create_mask_twice_blank (source : PIL.Image) (allowed : list Z) :
  PIL.wf source → restricted_to allowed source → 255 ∉ allowed →
  ∃ m m', create_mask source allowed = Some m ∧
          create_mask m allowed = Some m' ∧
          ∀ x y, 0 ≤ x < PIL.width source → 0 ≤ y < PIL.height source →
            PIL.getpixel m (x, y) = Some 255 ∧ PIL.getpixel m' (x, y) = Some 0.
Proof.
  intros Hwf Hres H255.
  destruct (create_mask_restricted source allowed Hwf Hres)
    as (m & Hrun & Hwfm & Hmode & Hw & Hh & Hpix).
  destruct (create_mask_spec m allowed Hwfm)
    as (m' & Hrun' & Hwfm' & Hmode' & Hw' & Hh' & Hpix').
  exists m, m'. split; [done|]. split; [done|].
  intros x y Hx Hy. split; [by apply Hpix|].
  rewrite (Hpix' x y 255) by (lia || by apply Hpix).
  unfold mask_value. by rewrite decide_False.
Qed.

(** * Fetching the forecast *)

(** C5. [get_weather] returns what [res.json()] gives, the parsed body, when
    the status is 200, and Python's [None] for every other status, whatever
    the body of that response holds. *)
Theorem get_weather_status (requests_get : string → option Response)
  (latitude longitude key : string) (res : Response) :
  requests_get (forecast_url latitude longitude key) = Some res →
  (status_code res = 200 →
     get_weather requests_get latitude longitude key = json_body res) ∧
  (status_code res ≠ 200 →
     get_weather requests_get latitude longitude key = Some JNull).
Proof.
  intros Hres. unfold get_weather. rewrite Hres. simpl.
  split; intros Hstatus.
  - by rewrite decide_True.
  - by rewrite decide_False.
Qed.

Lemma get_weather_status_witness :
  get_weather (λ _, Some (mkResponse 200 (Some (JDict {[ "timezone"%string := JStr "Europe/London" ]}))))
    "51.5" "-0.1" "k"
  = Some (JDict {[ "timezone"%string := JStr "Europe/London" ]}) ∧
  get_weather (λ _, Some (mkResponse 503 (Some (JDict {[ "timezone"%string := JStr "Europe/London" ]}))))
    "51.5" "-0.1" "k"
  = Some JNull.
Proof.
  split.
  - apply (get_weather_status
             (λ _, Some (mkResponse 200 (Some (JDict {[ "timezone"%string := JStr "Europe/London" ]}))))
             "51.5" "-0.1" "k" _ eq_refl).
    reflexivity.
  - apply (get_weather_status
             (λ _, Some (mkResponse 503 (Some (JDict {[ "timezone"%string := JStr "Europe/London" ]}))))
             "51.5" "-0.1" "k" _ eq_refl).
    simpl. lia.
Defined.

(** * Drawing *)

Section DrawSteps.

Context {A B : Type}.

Lemma bind_eval_Some (o : option A) (a : A) (k : A → Draw B) (c : Canvas) :
  o = Some a → (x ← eval o; k x) c = k a c.
Proof. by intros ->. Qed.

Lemma bind_emit (op : draw_op) (k : Draw B) (c : Canvas) :
  (emit op;; k) c = k (append_ops c [op]).
Proof. done. Qed.

Lemma append_ops_app (c : Canvas) (ops ops' : list draw_op) :
  append_ops (append_ops c ops) ops' = append_ops c (ops ++ ops').
Proof. destruct c. unfold append_ops; simpl. by rewrite <- app_assoc. Qed.

End DrawSteps.

Lemma cv_ops_append_ops (c : Canvas) (ops : list draw_op) :
  cv_ops (append_ops c ops) = cv_ops c ++ ops.
Proof. done. Qed.

Lemma has_number_rounded (fmt_round1 : number → string) (data_point : json)
  (key : string) :
  has_number data_point key → is_Some (rounded fmt_round1 data_point key).
Proof.
  unfold has_number, rounded. intros [n Hn].
  destruct (item data_point key) as [v|]; [|done]. simpl in *.
  rewrite Hn. by eexists.
Qed.

(** One statement of a drawing function: an evaluated expression, a
    measured text, a drawing call. *)
Ltac draw_step :=
  first
    [ rewrite bind_emit, ?append_ops_app
    | erewrite bind_eval_Some by eassumption
    | match goal with
      | |- context [let '(_, _) := ?gs in _] =>
          let w := fresh "text_w" in
          let h := fresh "text_h" in
          let E := fresh "Hsize" in
          destruct gs as [w h] eqn:E
      end ].

Lemma rows_within_line (top bottom y height : Z) :
  top ≤ y → 0 ≤ height → y + height ≤ bottom →
  rows_within top bottom (inject_Z y, (inject_Z y + inject_Z height)%Q).
Proof.
  intros Hy Hh Hb. unfold rows_within; simpl.
  rewrite <- inject_Z_plus, <- !Zle_Qle. lia.
Qed.

Lemma rows_within_centred (top bottom y band height : Z) :
  top ≤ y → 0 ≤ height ≤ band → y + band ≤ bottom →
  rows_within top bottom
    ((inject_Z y + half (band - height))%Q,
     (inject_Z y + half (band - height) + inject_Z height)%Q).
Proof.
  intros Hy Hh Hb. unfold rows_within, half, Qle; simpl. lia.
Qed.

Section Rendering.
Variable getsize : Z → string → Z * Z.
Variable fmt_round1 : number → string.

Lemma show_current_weather_run (data_point : json) (inky_display : Display)
  (h_offset : Z) (img : Canvas) :
  current_metrics_present data_point →
  ∃ ops,
    show_current_weather getsize fmt_round1 data_point inky_display h_offset img
    = Some (h_offset + (SUMMARY_H + 4 * LARGE_FONT_SIZE + 10), append_ops img ops) ∧
    forallb is_text ops = true ∧ length ops = 5%nat ∧
    ((∀ text, 0 ≤ (getsize LARGE_FONT_SIZE text).2 ≤ SUMMARY_H) →
     (∀ text, 0 ≤ (getsize MEDIUM_FONT_SIZE text).2 ≤ LARGE_FONT_SIZE + 10) →
     Forall (λ op, rows_within h_offset
                     (h_offset + (SUMMARY_H + 4 * LARGE_FONT_SIZE + 10))
                     (rows getsize op)) ops).
Proof.
  intros ([summary Hs] & [pressure Hp]%(has_number_rounded fmt_round1)
          & [wind Hw]%(has_number_rounded fmt_round1)
          & [vis Hv]%(has_number_rounded fmt_round1)
          & [ozone Ho]%(has_number_rounded fmt_round1)).
  unfold show_current_weather, draw_text.
  repeat draw_step.
  eexists. split; [unfold mret, Draw_ret; do 2 f_equal;
                   unfold SUMMARY_H, LARGE_FONT_SIZE; lia|].
  split; [done|]. split; [done|].
  intros Hlarge Hmedium.
  pose proof (Hlarge summary) as H0. rewrite Hsize in H0.
  pose proof (Hmedium ("Pressure " +:+ pressure)) as H1. rewrite Hsize0 in H1.
  pose proof (Hmedium ("Wind speed " +:+ wind)) as H2. rewrite Hsize1 in H2.
  pose proof (Hmedium ("Visibility " +:+ vis)) as H3. rewrite Hsize2 in H3.
  pose proof (Hmedium ("Ozone " +:+ ozone)) as H4. rewrite Hsize3 in H4.
  unfold SUMMARY_H, LARGE_FONT_SIZE in *. simpl in *.
  repeat first [apply List.Forall_cons | apply List.Forall_nil];
    unfold rows; simpl;
    rewrite ?Hsize, ?Hsize0, ?Hsize1, ?Hsize2, ?Hsize3; simpl;
    first [apply rows_within_line; lia | apply rows_within_centred; lia].
Qed.

Lemma icon_loaded_getitem (icons masks : gmap string PIL.Image)
  (data_point : json) (icon mask : PIL.Image) :
  icon_loaded icons masks data_point icon mask →
  ∃ code, item data_point "icon" = Some code ∧
          getitem icons (lookup_icon_value code) = Some icon ∧
          getitem masks (lookup_icon_value code) = Some mask.
Proof.
  intros (code & category & Hcode & Hcat & Hicon & Hmask).
  exists code. unfold getitem. rewrite Hcat. by simpl.
Qed.

Lemma show_current_weather_icon_run (icon_image : option PIL.Image)
  (data_point : json) (inky_display : Display)
  (icons masks : gmap string PIL.Image) (h_offset : Z) (img : Canvas)
  (icon mask last_opened : PIL.Image) :
  icon_bar_metrics_present data_point →
  icon_loaded icons masks data_point icon mask →
  icon_image = Some last_opened →
  ∃ temp_text precip_text,
    show_current_weather_icon getsize fmt_round1 icon_image data_point
      inky_display icons masks h_offset img
    = Some (h_offset + PIL.height icon,
            append_ops img
              [ Rectangle (0, h_offset, WIDTH inky_display,
                           h_offset + PIL.height icon) (BLACK inky_display);
                temp_text; precip_text;
                Paste icon
                  (int_div (WIDTH inky_display - PIL.width last_opened) 2,
                   h_offset) mask ]) ∧
    is_text temp_text = true ∧ is_text precip_text = true.
Proof.
  intros ([temp Ht]%(has_number_rounded fmt_round1)
          & [feels Hf]%(has_number_rounded fmt_round1)
          & [precip Hp]%(has_number_rounded fmt_round1))
         (code & Hcode & Hicon & Hmask)%icon_loaded_getitem Hlast.
  unfold show_current_weather_icon, draw_text, draw_rectangle, img_paste.
  cbv zeta. repeat draw_step.
  by eexists _, _.
Qed.
Variable weekday_name : number → string → option string.

Lemma draw_weather_tile_run (inky_display : Display) (data_point : json)
  (icons masks : gmap string PIL.Image) (timezone : json) (tile : Canvas)
  (icon mask : PIL.Image) :
  tile_metrics_present weekday_name data_point timezone →
  icon_loaded icons masks data_point icon mask →
  ∃ ops,
    draw_weather_tile getsize fmt_round1 weekday_name inky_display data_point
      icons masks timezone tile
    = Some ((), append_ops tile ops).
Proof.
  intros ([day Hday] & [low Hlow]%(has_number_rounded fmt_round1)
          & [high Hhigh]%(has_number_rounded fmt_round1))
         (code & Hcode & Hicon & Hmask)%icon_loaded_getitem.
  unfold draw_weather_tile, draw_text, draw_rectangle, img_paste.
  cbv zeta. repeat draw_step.
  unfold img_width, mbind at 1, Draw_bind at 1.
  repeat draw_step. unfold emit. rewrite append_ops_app. by eexists.
Qed.


Lemma int_div_floor (a b : Z) : 0 ≤ a → 0 < b → int_div a b = a `div` b.
Proof. intros Ha Hb. unfold int_div. apply Z.quot_div_nonneg; lia. Qed.

Lemma draw_tiles_run (inky_display : Display) (res : json) (ld : Loaded)
  (used_h : Z) (img : Canvas) :
  0 ≤ WIDTH inky_display → used_h ≤ HEIGHT inky_display →
  forecast_ready weekday_name (icons ld) (masks ld) res →
  ∃ tile0 tile1 tile2,
    draw_tiles getsize fmt_round1 weekday_name inky_display res ld used_h img
    = Some ((), append_ops img
                  [ PasteCanvas tile0 (0, used_h);
                    PasteCanvas tile1 (WIDTH inky_display `div` 3, used_h);
                    PasteCanvas tile2 (2 * (WIDTH inky_display `div` 3), used_h) ]) ∧
    Forall (λ tile, cv_width tile = WIDTH inky_display `div` 3 ∧
                    cv_height tile = HEIGHT inky_display - used_h)
           [tile0; tile1; tile2].
Proof.
  intros Hw Hh (daily & data & timezone & Hdaily & Hdata & Htz & Hrows).
  unfold draw_tiles, FORECARST_COLUMNS in *.
  rewrite int_div_floor by lia.
  set (tile_w := WIDTH inky_display `div` 3).
  assert (0 ≤ tile_w) by (apply Z.div_pos; lia).
  change (range 3) with [0; 1; 2].
  assert (Hnew : new_canvas (tile_w, HEIGHT inky_display - used_h)
                   (WHITE inky_display)
                 = Some (mkCanvas tile_w (HEIGHT inky_display - used_h)
                           (WHITE inky_display) [])).
  { unfold new_canvas; simpl.
    rewrite (proj2 (Z.leb_le 0 tile_w)) by done.
    by rewrite (proj2 (Z.leb_le 0 (HEIGHT inky_display - used_h))) by lia. }
  destruct (Hrows 0) as (d0 & i0 & m0 & Hd0 & Hm0 & Hi0); [lia|].
  destruct (Hrows 1) as (d1 & i1 & m1 & Hd1 & Hm1 & Hi1); [lia|].
  destruct (Hrows 2) as (d2 & i2 & m2 & Hd2 & Hm2 & Hi2); [lia|].
  destruct (draw_weather_tile_run inky_display d0 _ _ timezone
              (mkCanvas tile_w (HEIGHT inky_display - used_h) (WHITE inky_display) [])
              i0 m0 Hm0 Hi0) as [ops0 Hrun0].
  destruct (draw_weather_tile_run inky_display d1 _ _ timezone
              (mkCanvas tile_w (HEIGHT inky_display - used_h) (WHITE inky_display) [])
              i1 m1 Hm1 Hi1) as [ops1 Hrun1].
  destruct (draw_weather_tile_run inky_display d2 _ _ timezone
              (mkCanvas tile_w (HEIGHT inky_display - used_h) (WHITE inky_display) [])
              i2 m2 Hm2 Hi2) as [ops2 Hrun2].
  cbn [for_each]. rewrite Hnew, Hdaily. cbn [mbind option_bind].
  rewrite Hdata. cbn [mbind option_bind]. rewrite Hd0, Hd1, Hd2, Htz.
  cbn [mbind option_bind]. rewrite Hrun0, Hrun1, Hrun2.
  unfold img_paste_tile, emit. cbn [mbind option_bind].
  rewrite !append_ops_app, Z.mul_0_l, Z.mul_1_l.
  eexists _, _, _. split; [reflexivity|].
  repeat first [apply List.Forall_cons | apply List.Forall_nil]; done.
Qed.

Lemma tiles_of_append_ops (c : Canvas) (ops : list draw_op) :
  tiles_of (append_ops c ops) = tiles_of c ++ tiles_of (mkCanvas 0 0 0 ops).
Proof. unfold tiles_of. rewrite cv_ops_append_ops. by rewrite omap_app. Qed.

Lemma tiles_of_texts (ops : list draw_op) :
  forallb is_text ops = true → tiles_of (mkCanvas 0 0 0 ops) = [].
Proof.
  unfold tiles_of; simpl. induction ops as [|op ops IH]; simpl; [done|].
  intros [Hop Hops]%andb_true_iff. destruct op; try done. by apply IH.
Qed.

Variable requests_get : string → option Response.
Variable now_strftime : string → option string.
Variable InkyWHAT : string → Display.

Lemma main_run (args : Args) (files : list (string * PIL.Image))
  (inky_display : Display) (res currently : json) (ld : Loaded)
  (icon mask last_opened : PIL.Image) (used_h : Z) :
  InkyWHAT (colour args) = inky_display →
  used_h = SUMMARY_H + 4 * LARGE_FONT_SIZE + 10 + PIL.height icon →
  get_weather requests_get (latitude args) (longitude args) (dskey args)
  = Some res →
  load_icons inky_display files = Some ld →
  icon_image ld = Some last_opened →
  0 ≤ WIDTH inky_display → 0 ≤ HEIGHT inky_display →
  used_h ≤ HEIGHT inky_display →
  item res "currently" = Some currently →
  current_metrics_present currently →
  icon_bar_metrics_present currently →
  icon_loaded (icons ld) (masks ld) currently icon mask →
  forecast_ready weekday_name (icons ld) (masks ld) res →
  is_Some (tz ← item res "timezone" ≫= as_str; now_strftime tz) →
  ∃ img tile0 tile1 tile2,
    main requests_get getsize fmt_round1 weekday_name now_strftime InkyWHAT
      args files = Some (Rotate img 180) ∧
    cv_width img = WIDTH inky_display ∧ cv_height img = HEIGHT inky_display ∧
    tiles_of img
    = [ (tile0, (0, used_h));
        (tile1, (WIDTH inky_display `div` 3, used_h));
        (tile2, (2 * (WIDTH inky_display `div` 3), used_h)) ] ∧
    Forall (λ tile, cv_width tile = WIDTH inky_display `div` 3 ∧
                    cv_height tile = HEIGHT inky_display - used_h)
           [tile0; tile1; tile2].
Proof.
  intros Hdisplay Hused Hres Hload Hlast Hw Hh Hfit Hcur Hmetrics Hbar Hicon
         Hready [now Hnow].
  unfold main. rewrite Hres, Hdisplay. cbn [mbind option_bind].
  rewrite Hload. cbn [mbind option_bind].
  unfold new_canvas; cbn [fst snd].
  rewrite (proj2 (Z.leb_le 0 _) Hw), (proj2 (Z.leb_le 0 _) Hh).
  cbn [andb mbind option_bind]. rewrite Hcur. cbn [mbind option_bind].
  set (img0 := mkCanvas _ _ _ []).
  destruct (show_current_weather_run currently inky_display 0 img0 Hmetrics)
    as (texts & -> & Htexts & _ & _).
  cbn [mbind option_bind].
  destruct (show_current_weather_icon_run _ currently inky_display _ _
              (0 + (SUMMARY_H + 4 * LARGE_FONT_SIZE + 10))
              (append_ops img0 texts) icon mask last_opened Hbar Hicon Hlast)
    as (t1 & t2 & -> & Ht1 & Ht2).
  cbn [mbind option_bind].
  match goal with
  | |- context [draw_tiles _ _ _ _ _ _ _ ?c] => set (img2 := c)
  end.
  replace (0 + (SUMMARY_H + 4 * LARGE_FONT_SIZE + 10) + PIL.height icon)
    with used_h by lia.
  destruct (draw_tiles_run inky_display res ld used_h img2 Hw Hfit Hready)
    as (tile0 & tile1 & tile2 & -> & Hsizes).
  cbn [mbind option_bind].
  destruct (item res "timezone" ≫= as_str) as [tz|] eqn:Htz; [|done].
  cbn [mbind option_bind] in Hnow |- *. rewrite Hnow. cbn [mbind option_bind].
  unfold draw_text, emit. cbn [mbind option_bind].
  eexists _, tile0, tile1, tile2. split; [reflexivity|].
  split; [done|]. split; [done|]. split; [|done].
  subst img2. rewrite !tiles_of_append_ops.
  rewrite (tiles_of_texts texts Htexts).
  destruct t1; try done. destruct t2; try done.
Qed.
End Rendering.

(** * Loading the icons *)

(** The loop of lines 136-140 fills [icons] and [masks] under the same keys
    and leaves the module-level [icon_image] bound as soon as one file was
    opened. *)
Lemma load_icons_bound (inky_display : Display)
  (files : list (string * PIL.Image)) (ld : Loaded) (category : string)
  (icon : PIL.Image) :
  load_icons inky_display files = Some ld →
  icons ld !! category = Some icon →
  is_Some (masks ld !! category) ∧ is_Some (icon_image ld).
Proof.
  intros Hload. revert category icon.
  refine (for_each_preserves
    (λ st, ∀ category icon, icons st !! category = Some icon →
             is_Some (masks st !! category) ∧ is_Some (icon_image st))
    _ _ _ _ Hload _ _); simpl.
  - intros category icon. by rewrite lookup_empty.
  - intros st [path opened] st' Hstep IH category icon.
    destruct (str_split path "icon-" !! 1%nat) as [name|];
      simpl in Hstep; [|done].
    destruct (create_mask opened _) as [mask|]; simpl in Hstep; [|done].
    injection Hstep as <-. simpl.
    destruct (decide (str_replace name ".png" "" = category)) as [->|Hne].
    + rewrite !lookup_insert_eq. intros _. by split.
    + rewrite !lookup_insert_ne by done. intros Hicon. split; [|done].
      by destruct (IH category icon Hicon).
Qed.

Lemma icon_mapped_loaded (inky_display : Display)
  (files : list (string * PIL.Image)) (ld : Loaded) (data_point : json)
  (icon : PIL.Image) :
  load_icons inky_display files = Some ld →
  icon_mapped (icons ld) data_point icon →
  ∃ mask last_opened,
    icon_loaded (icons ld) (masks ld) data_point icon mask ∧
    icon_image ld = Some last_opened.
Proof.
  intros Hload (code & category & Hcode & Hcat & Hicon).
  destruct (load_icons_bound _ _ _ _ _ Hload Hicon) as [[mask Hmask] [g Hg]].
  exists mask, g. split; [|done]. by exists code, category.
Qed.


(** * The claims on the layout *)

(** C8. For every reading that carries the summary and the four metrics and
    every starting offset [h_offset], [show_current_weather] returns
    [h_offset] plus a constant, whatever the reading holds: 2 x
    LARGE_FONT_SIZE for the header band, four line advances of
    LARGE_FONT_SIZE and 10 of padding, 130 in all. It draws five texts, and
    when the font keeps the summary within the band and a metric line within
    its advance and the padding, all of them lie in the rows from [h_offset]
    to the returned offset, so that what is drawn from the returned offset on
    does not overlap them. *)
Theorem show_current_weather_offset (getsize : Z → string → Z * Z)
  (fmt_round1 : number → string) (data_point : json) (inky_display : Display)
  (h_offset : Z) (img : Canvas) :
  current_metrics_present data_point →
  ∃ ops,
    show_current_weather getsize fmt_round1 data_point inky_display h_offset img
    = Some (h_offset + (SUMMARY_H + 4 * LARGE_FONT_SIZE + 10), append_ops img ops) ∧
    h_offset + (SUMMARY_H + 4 * LARGE_FONT_SIZE + 10) = h_offset + 130 ∧
    forallb is_text ops = true ∧ length ops = 5%nat ∧
    ((∀ text, 0 ≤ (getsize LARGE_FONT_SIZE text).2 ≤ SUMMARY_H) →
     (∀ text, 0 ≤ (getsize MEDIUM_FONT_SIZE text).2 ≤ LARGE_FONT_SIZE + 10) →
     Forall (λ op, rows_within h_offset
                     (h_offset + (SUMMARY_H + 4 * LARGE_FONT_SIZE + 10))
                     (rows getsize op)) ops).
Proof.
  intros Hmetrics.
  destruct (show_current_weather_run getsize fmt_round1 data_point inky_display
              h_offset img Hmetrics) as (ops & Hrun & Htexts & Hlen & Hrows).
  exists ops. by repeat split.
Qed.

Lemma sample_reading_metrics (icon : string) :
  current_metrics_present (sample_reading icon).
Proof. repeat split; by eexists. Defined.

Lemma show_current_weather_offset_witness :
  ∃ ops,
    show_current_weather sample_getsize sample_fmt_round1
      (sample_reading "clear-day") (sample_display "red") 0
      (mkCanvas 400 300 0 [])
    = Some (0 + (SUMMARY_H + 4 * LARGE_FONT_SIZE + 10),
            append_ops (mkCanvas 400 300 0 []) ops) ∧
    0 + (SUMMARY_H + 4 * LARGE_FONT_SIZE + 10) = 0 + 130 ∧
    forallb is_text ops = true ∧ length ops = 5%nat ∧
    ((∀ text, 0 ≤ (sample_getsize LARGE_FONT_SIZE text).2 ≤ SUMMARY_H) →
     (∀ text, 0 ≤ (sample_getsize MEDIUM_FONT_SIZE text).2 ≤ LARGE_FONT_SIZE + 10) →
     Forall (λ op, rows_within 0 (0 + (SUMMARY_H + 4 * LARGE_FONT_SIZE + 10))
                     (rows sample_getsize op)) ops).
Proof.
  apply (show_current_weather_offset sample_getsize sample_fmt_round1
           (sample_reading "clear-day") (sample_display "red") 0
           (mkCanvas 400 300 0 [])).
  apply sample_reading_metrics.
Defined.

Lemma sample_load :
  load_icons (sample_display "red") sample_files = Some sample_loaded.
Proof. vm_compute. reflexivity. Defined.

Lemma sample_reading_bar_metrics (icon : string) :
  icon_bar_metrics_present (sample_reading icon).
Proof. repeat split; by eexists. Defined.

Lemma sample_reading_sun :
  icon_mapped (icons sample_loaded) (sample_reading "clear-day") (sample_icon 8 6).
Proof. exists (JStr "clear-day"), "sun"%string. by repeat split. Defined.

(** C9. For every reading whose icon code maps to a loaded category (and
    which carries the three metrics of the bar) and every starting offset
    [h_offset], [show_current_weather_icon] returns [h_offset] plus the
    height of the bitmap of that category. *)
Theorem show_current_weather_icon_offset (getsize : Z → string → Z * Z)
  (fmt_round1 : number → string) (inky_display : Display)
  (files : list (string * PIL.Image)) (ld : Loaded) (data_point : json)
  (icon : PIL.Image) (h_offset : Z) (img : Canvas) :
  load_icons inky_display files = Some ld →
  icon_mapped (icons ld) data_point icon →
  icon_bar_metrics_present data_point →
  ∃ img',
    show_current_weather_icon getsize fmt_round1 (icon_image ld) data_point
      inky_display (icons ld) (masks ld) h_offset img
    = Some (h_offset + PIL.height icon, img').
Proof.
  intros Hload Hicon Hbar.
  destruct (icon_mapped_loaded _ _ _ _ _ Hload Hicon)
    as (mask & last_opened & Hloaded & Hlast).
  destruct (show_current_weather_icon_run getsize fmt_round1 _ data_point
              inky_display _ _ h_offset img icon mask last_opened
              Hbar Hloaded Hlast) as (t1 & t2 & Hrun & _).
  by eexists.
Qed.

Lemma show_current_weather_icon_offset_witness :
  ∃ img',
    show_current_weather_icon sample_getsize sample_fmt_round1
      (icon_image sample_loaded) (sample_reading "clear-day")
      (sample_display "red") (icons sample_loaded) (masks sample_loaded)
      130 (mkCanvas 400 300 0 [])
    = Some (130 + PIL.height (sample_icon 8 6), img').
Proof.
  apply (show_current_weather_icon_offset sample_getsize sample_fmt_round1
           (sample_display "red") sample_files sample_loaded
           (sample_reading "clear-day") (sample_icon 8 6) 130
           (mkCanvas 400 300 0 [])).
  - exact sample_load.
  - exact sample_reading_sun.
  - apply sample_reading_bar_metrics.
Defined.


(** C3 fails on the code: with the sun icon 8 wide and the icon opened last
    6 wide, the sun icon of a clear-day reading is pasted at column 197 of
    the 400-wide canvas, where (400 - 8) / 2 = 196 would centre it. *)
Theorem icon_bar_paste_off_centre :
  ∃ img mask,
    load_icons (sample_display "red") sample_files = Some sample_loaded ∧
    getitem (icons sample_loaded) (lookup_icon "clear-day")
    = Some (sample_icon 8 6) ∧
    show_current_weather_icon sample_getsize sample_fmt_round1
      (icon_image sample_loaded) (sample_reading "clear-day")
      (sample_display "red") (icons sample_loaded) (masks sample_loaded)
      130 (mkCanvas 400 300 0 [])
    = Some (136, img) ∧
    last (cv_ops img) = Some (Paste (sample_icon 8 6) (197, 130) mask) ∧
    int_div (WIDTH (sample_display "red") - PIL.width (sample_icon 8 6)) 2 = 196.
Proof.
  eexists _, _. split; [exact sample_load|].
  split; [reflexivity|]. split; [vm_compute; reflexivity|].
  split; reflexivity.
Qed.

(** C4. When the forecast document holds at least three drawable daily
    readings and the current-conditions sections fit the display of width W
    and height H, the main block completes and has pasted exactly three
    tiles, each W/3 wide (integer division) and H minus the rows used by the
    current-conditions sections high, at columns 0, W/3 and 2 x (W/3) of the
    row where those sections end; no two tiles share a column. *)
Theorem main_tiles (requests_get : string → option Response)
  (getsize : Z → string → Z * Z) (fmt_round1 : number → string)
  (weekday_name : number → string → option string)
  (now_strftime : string → option string) (InkyWHAT : string → Display)
  (args : Args) (files : list (string * PIL.Image))
  (res currently : json) (ld : Loaded) (icon : PIL.Image) :
  get_weather requests_get (latitude args) (longitude args) (dskey args)
  = Some res →
  load_icons (InkyWHAT (colour args)) files = Some ld →
  0 ≤ WIDTH (InkyWHAT (colour args)) →
  0 ≤ HEIGHT (InkyWHAT (colour args)) →
  current_section_height icon ≤ HEIGHT (InkyWHAT (colour args)) →
  item res "currently" = Some currently →
  current_metrics_present currently →
  icon_bar_metrics_present currently →
  icon_mapped (icons ld) currently icon →
  forecast_ready weekday_name (icons ld) (masks ld) res →
  is_Some (tz ← item res "timezone" ≫= as_str; now_strftime tz) →
  ∃ img tile0 tile1 tile2,
    main requests_get getsize fmt_round1 weekday_name now_strftime InkyWHAT
      args files = Some (Rotate img 180) ∧
    tiles_of img
    = [ (tile0, (0, current_section_height icon));
        (tile1, (WIDTH (InkyWHAT (colour args)) `div` 3,
                 current_section_height icon));
        (tile2, (2 * (WIDTH (InkyWHAT (colour args)) `div` 3),
                 current_section_height icon)) ] ∧
    Forall (λ tile,
              cv_width tile = WIDTH (InkyWHAT (colour args)) `div` 3 ∧
              cv_height tile
              = HEIGHT (InkyWHAT (colour args)) - current_section_height icon)
           [tile0; tile1; tile2] ∧
    ∀ i j a b, (i < j)%nat → tiles_of img !! i = Some a →
               tiles_of img !! j = Some b → columns_disjoint a b.
Proof.
  intros Hres Hload Hw Hh Hfit Hcur Hmetrics Hbar Hicon Hready Hnow.
  destruct (icon_mapped_loaded _ _ _ _ _ Hload Hicon)
    as (mask & last_opened & Hloaded & Hlast).
  destruct (main_run getsize fmt_round1 weekday_name requests_get now_strftime
              InkyWHAT args files _ res currently ld icon mask last_opened
              (current_section_height icon) eq_refl eq_refl Hres Hload Hlast
              Hw Hh Hfit Hcur Hmetrics Hbar Hloaded Hready Hnow)
    as (img & tile0 & tile1 & tile2 & Hrun & _ & _ & Htiles & Hsizes).
  exists img, tile0, tile1, tile2.
  split; [done|]. split; [done|]. split; [done|].
  assert (0 ≤ WIDTH (InkyWHAT (colour args)) `div` 3) by (apply Z.div_pos; lia).
  apply Forall_cons in Hsizes as [[Hw0 _] Hsizes].
  apply Forall_cons in Hsizes as [[Hw1 _] Hsizes].
  apply Forall_cons in Hsizes as [[Hw2 _] _].
  rewrite Htiles. intros i j a b Hij Ha Hb. unfold columns_disjoint. left.
  destruct i as [|[|[|i]]], j as [|[|[|j]]]; simplify_eq/=; lia.
Qed.

Lemma sample_forecast_ready :
  forecast_ready sample_weekday_name (icons sample_loaded)
    (masks sample_loaded) sample_forecast.
Proof.
  eexists _, _, _. split; [reflexivity|]. split; [reflexivity|].
  split; [reflexivity|].
  intros i Hi. unfold FORECARST_COLUMNS in Hi.
  assert (i = 0 ∨ i = 1 ∨ i = 2) as [->|[->| ->]] by lia.
  - exists (sample_reading "wind"), (sample_icon 6 6), (sample_mask 6 6).
    split; [reflexivity|]. split; [repeat split; by eexists|].
    exists (JStr "wind"), "wind"%string. by repeat split.
  - exists (sample_reading "clear-night"), (sample_icon 8 6), (sample_mask 8 6).
    split; [reflexivity|]. split; [repeat split; by eexists|].
    exists (JStr "clear-night"), "sun"%string. by repeat split.
  - exists (sample_reading "wind"), (sample_icon 6 6), (sample_mask 6 6).
    split; [reflexivity|]. split; [repeat split; by eexists|].
    exists (JStr "wind"), "wind"%string. by repeat split.
Defined.

Lemma main_tiles_witness :
  ∃ img tile0 tile1 tile2,
    main sample_requests_get sample_getsize sample_fmt_round1
      sample_weekday_name sample_now_strftime sample_display
      sample_args sample_files = Some (Rotate img 180) ∧
    tiles_of img
    = [ (tile0, (0, current_section_height (sample_icon 8 6)));
        (tile1, (WIDTH (sample_display (colour sample_args)) `div` 3,
                 current_section_height (sample_icon 8 6)));
        (tile2, (2 * (WIDTH (sample_display (colour sample_args)) `div` 3),
                 current_section_height (sample_icon 8 6))) ] ∧
    Forall (λ tile,
              cv_width tile = WIDTH (sample_display (colour sample_args)) `div` 3 ∧
              cv_height tile
              = HEIGHT (sample_display (colour sample_args))
                - current_section_height (sample_icon 8 6))
           [tile0; tile1; tile2] ∧
    ∀ i j a b, (i < j)%nat → tiles_of img !! i = Some a →
               tiles_of img !! j = Some b → columns_disjoint a b.
Proof.
  apply (main_tiles sample_requests_get sample_getsize sample_fmt_round1
           sample_weekday_name sample_now_strftime sample_display
           sample_args sample_files sample_forecast
           (sample_reading "clear-day") sample_loaded (sample_icon 8 6)).
  - reflexivity.
  - exact sample_load.
  - simpl. lia.
  - simpl. lia.
  - vm_compute. discriminate.
  - reflexivity.
  - apply sample_reading_metrics.
  - apply sample_reading_bar_metrics.
  - exact sample_reading_sun.
  - exact sample_forecast_ready.
  - by eexists.
Defined.

(** The third column is twice the tile width; that is the integer quotient
    of 2 x W by 3 unless W leaves remainder 2, as on the 400-wide panel. *)
Lemma third_column_quotient (W : Z) :
  0 ≤ W → (2 * (W `div` 3) = (2 * W) `div` 3 ↔ W `mod` 3 ≠ 2).
Proof.
  intros HW.
  pose proof (Z.div_mod W 3). pose proof (Z.mod_pos_bound W 3).
  pose proof (Z.div_mod (2 * W) 3). pose proof (Z.mod_pos_bound (2 * W) 3).
  lia.
Qed.


Lemma create_mask_twice_blank_witness :
  ∃ m m', create_mask (sample_icon 8 6) [0; 1; 2] = Some m ∧
          create_mask m [0; 1; 2] = Some m' ∧
          ∀ x y, 0 ≤ x < 8 → 0 ≤ y < 6 →
            PIL.getpixel m (x, y) = Some 255 ∧ PIL.getpixel m' (x, y) = Some 0.
Proof.
  apply (create_mask_twice_blank (sample_icon 8 6) [0; 1; 2]).
  - repeat split; simpl; lia.
  - unfold restricted_to. simpl. repeat constructor.
  - intros Hin.
    repeat match goal with
           | H : _ ∈ [] |- _ => by apply elem_of_nil in H
           | H : _ ∈ _ :: _ |- _ => apply elem_of_cons in H as [?|H]; [lia|]
           end.
Defined.

(** A reading whose icon code is in no list of [icon_map] makes the icon bar
    raise: [lookup_icon] gives [None] and [icons[None]] is a [KeyError]. *)
Lemma show_current_weather_icon_unmapped (getsize : Z → string → Z * Z)
  (fmt_round1 : number → string) (icon_image : option PIL.Image)
  (data_point code : json) (inky_display : Display)
  (icons masks : gmap string PIL.Image) (h_offset : Z) (img : Canvas) :
  item data_point "icon" = Some code →
  lookup_icon_value code = None →
  show_current_weather_icon getsize fmt_round1 icon_image data_point
    inky_display icons masks h_offset img = None.
Proof.
  intros Hcode Hnone. unfold show_current_weather_icon. cbv zeta.
  destruct (rounded fmt_round1 data_point "temperature") as [temp|] eqn:Ht;
    [|done].
  destruct (rounded fmt_round1 data_point "apparentTemperature")
    as [feels|] eqn:Hf; [|done].
  rewrite (bind_eval_Some (Some temp) temp _ _ eq_refl).
  rewrite (bind_eval_Some (Some feels) feels _ _ eq_refl).
  repeat draw_step. by rewrite Hnone.
Qed.

Lemma show_current_weather_icon_unmapped_witness :
  show_current_weather_icon sample_getsize sample_fmt_round1
    (icon_image sample_loaded) (sample_reading "hail") (sample_display "red")
    (icons sample_loaded) (masks sample_loaded) 130 (mkCanvas 400 300 0 [])
  = None.
Proof.
  apply (show_current_weather_icon_unmapped sample_getsize sample_fmt_round1
           (icon_image sample_loaded) (sample_reading "hail") (JStr "hail")).
  - reflexivity.
  - reflexivity.
Defined.
